(** * SimpleStorageService (src/cloud_storage/aws_storage.py)

    A shallow embedding of the S3 facade and the properties of its
    operations.  The storage backend, the local file system and the
    failures of the SDK are an explicit [World]; every method is a
    function in the state-and-exception monad [Py] over it. *)

From Stdlib Require Import String Ascii NArith Bool List Lia.
From stdpp Require Import base option list gmap strings fin_maps.
Import ListNotations.

Local Open Scope string_scope.

(** ** Exceptions

    All of them are subclasses of Python's [Exception].  [ClientError]
    is botocore's service error, it carries
    [e.response["Error"]["Code"]]; [BotoCoreError] stands for the
    botocore failures that are not a [ClientError] (connection,
    credentials, parameter validation).  [MyException] is built from
    one argument, a message or the caught exception. *)

Inductive PyExc : Type :=
| ClientError (code : string)
| BotoCoreError (name : string)
| FileNotFoundError (path : string)
| AttributeError (msg : string)
| TypeError (msg : string)
| IndexError
| UnicodeDecodeError
| UnpicklingError
| ParserError
| MyException (arg : MyArg)
with MyArg : Type :=
| Msg (s : string)
| Cause (e : PyExc).

(** [isinstance(e, ClientError)], as the handler of [create_folder]
    tests it. *)
Definition is_ClientError (e : PyExc) : option string :=
  match e with
  | ClientError code => Some code
  | _ => None
  end.

Definition is_MyException (e : PyExc) : bool :=
  match e with
  | MyException _ => true
  | _ => false
  end.

(** The exception at the bottom of a chain of wrappings, or the
    message the innermost [MyException] was built from. *)
Fixpoint root_cause (e : PyExc) : MyArg :=
  match e with
  | MyException (Cause e') => root_cause e'
  | MyException (Msg s) => Msg s
  | _ => Cause e
  end.

(** ** Values

    [read_object] and [get_file_object] are dynamically typed: the
    values that flow through them. *)

Record ObjectSummary : Type := mkObject {
  bucket_name : string;
  key : string
}.

Inductive PyVal : Type :=
| VNone
| VStr (s : string)
| VBytes (b : string)
| VStringIO (s : string)
| VObject (o : ObjectSummary)
| VList (l : list ObjectSummary).

(** ** The world

    [objects] is the backend, by (bucket, key); [files] the local file
    system; [fault] says which calls of the SDK and of the operating
    system fail, and with what; [trace] records the calls made, the
    latest first. *)

Inductive SdkCall : Type :=
| ResourceBucket (bucket : string)
| ObjectsFilter (bucket prefix : string)
| ObjectGet (bucket k : string)
| ObjectLoad (bucket k : string)
| PutObject (bucket k : string)
| ClientUploadFile (filename bucket k : string)
| OsRemove (path : string)
| ToCsv (path : string).

Definition is_network (c : SdkCall) : bool :=
  match c with
  | ObjectsFilter _ _ | ObjectGet _ _ | ObjectLoad _ _
  | PutObject _ _ | ClientUploadFile _ _ _ => true
  | ResourceBucket _ | OsRemove _ | ToCsv _ => false
  end.

Record World : Type := mkWorld {
  objects : gmap (string * string) string;
  files : gmap string string;
  fault : SdkCall -> option PyExc;
  trace : list SdkCall
}.

Definition set_objects (f : gmap (string * string) string -> gmap (string * string) string)
    (w : World) : World :=
  mkWorld (f (objects w)) (files w) (fault w) (trace w).

Definition set_files (f : gmap string string -> gmap string string) (w : World) : World :=
  mkWorld (objects w) (f (files w)) (fault w) (trace w).

Definition log_call (c : SdkCall) (w : World) : World :=
  mkWorld (objects w) (files w) (fault w) (c :: trace w).

(** ** The monad *)

Inductive Result (A : Type) : Type :=
| Ok (a : A)
| Raise (e : PyExc).

Arguments Ok {A} a.
Arguments Raise {A} e.

Definition Py (A : Type) : Type := World -> Result A * World.

Definition ret {A : Type} (a : A) : Py A := fun w => (Ok a, w).

Definition raise {A : Type} (e : PyExc) : Py A := fun w => (Raise e, w).

Definition bind {A B : Type} (m : Py A) (k : A -> Py B) : Py B :=
  fun w =>
    match m w with
    | (Ok a, w') => k a w'
    | (Raise e, w') => (Raise e, w')
    end.

Declare Scope py_scope.
Delimit Scope py_scope with py.
Notation "x <- m ;; k" := (bind m (fun x => k))
  (at level 100, m at next level, right associativity) : py_scope.
Notation "m ;;; k" := (bind m (fun _ => k))
  (at level 100, right associativity) : py_scope.
Local Open Scope py_scope.

(** [try: m except <class> as e: h e]: [handler e] is [None] when [e]
    is not an instance of the class, and the exception goes on. *)
Definition try_except {A : Type} (m : Py A) (handler : PyExc -> option (Py A)) : Py A :=
  fun w =>
    match m w with
    | (Ok a, w') => (Ok a, w')
    | (Raise e, w') =>
      match handler e with
      | Some h => h w'
      | None => (Raise e, w')
      end
    end.

(** [try: m except Exception as e: raise MyException(e, sys) from e]. *)
Definition wrapping {A : Type} (m : Py A) : Py A :=
  try_except m (fun e => Some (raise (MyException (Cause e)))).

(** ** The SDK and the operating system *)

(** A call is recorded, and fails when the world says so. *)
Definition sdk (c : SdkCall) : Py unit :=
  fun w =>
    match fault w c with
    | Some e => (Raise e, log_call c w)
    | None => (Ok tt, log_call c w)
    end.

(** [bucket.objects.filter(Prefix=prefix)], consumed by the list
    comprehension: the objects of the bucket whose key starts with
    the prefix. *)
Definition matches (bucket prefix : string) (kv : (string * string) * string) : bool :=
  String.eqb (fst (fst kv)) bucket && String.prefix prefix (snd (fst kv)).

Definition matching (m : gmap (string * string) string) (bucket prefix : string)
    : list ObjectSummary :=
  map (fun kv => mkObject (fst (fst kv)) (snd (fst kv)))
      (List.filter (matches bucket prefix) (map_to_list m)).

Definition objects_filter (bucket prefix : string) : Py (list ObjectSummary) :=
  sdk (ObjectsFilter bucket prefix) ;;;
  fun w => (Ok (matching (objects w) bucket prefix), w).

(** [o.get()["Body"].read()]. *)
Definition object_get (o : ObjectSummary) : Py string :=
  sdk (ObjectGet (bucket_name o) (key o)) ;;;
  fun w =>
    match objects w !! (bucket_name o, key o) with
    | Some body => (Ok body, w)
    | None => (Raise (ClientError "NoSuchKey"), w)
    end.

(** [Object(bucket, k).load()]: a HEAD request, 404 when there is no
    such object. *)
Definition object_load (bucket k : string) : Py unit :=
  sdk (ObjectLoad bucket k) ;;;
  fun w =>
    match objects w !! (bucket, k) with
    | Some _ => (Ok tt, w)
    | None => (Raise (ClientError "404"), w)
    end.

(** [put_object(Bucket=bucket, Key=k)]: no body, a zero-byte object. *)
Definition put_object (bucket k : string) : Py unit :=
  sdk (PutObject bucket k) ;;;
  fun w => (Ok tt, set_objects (insert (bucket, k) "") w).

(** [meta.client.upload_file(filename, bucket, k)]. *)
Definition client_upload_file (filename bucket k : string) : Py unit :=
  sdk (ClientUploadFile filename bucket k) ;;;
  fun w =>
    match files w !! filename with
    | Some body => (Ok tt, set_objects (insert (bucket, k) body) w)
    | None => (Raise (FileNotFoundError filename), w)
    end.

(** [os.remove(path)]. *)
Definition os_remove (path : string) : Py unit :=
  sdk (OsRemove path) ;;;
  fun w =>
    match files w !! path with
    | Some _ => (Ok tt, set_files (delete path) w)
    | None => (Raise (FileNotFoundError path), w)
    end.

(** ** Text and bytes

    A [str] is kept as its UTF-8 encoding; [bytes.decode()] accepts
    the well-formed sequences (RFC 3629) and raises on the others. *)

Fixpoint utf8_from (k : nat) (lo hi : N) (s : string) : bool :=
  match s with
  | EmptyString => match k with O => true | S _ => false end
  | String c s' =>
    let n := N_of_ascii c in
    match k with
    | S k' => (lo <=? n)%N && (n <=? hi)%N && utf8_from k' 0x80 0xBF s'
    | O =>
      if (n <=? 0x7F)%N then utf8_from 0 0x80 0xBF s'
      else if (0xC2 <=? n)%N && (n <=? 0xDF)%N then utf8_from 1 0x80 0xBF s'
      else if (n =? 0xE0)%N then utf8_from 2 0xA0 0xBF s'
      else if (n =? 0xED)%N then utf8_from 2 0x80 0x9F s'
      else if (0xE1 <=? n)%N && (n <=? 0xEF)%N then utf8_from 2 0x80 0xBF s'
      else if (n =? 0xF0)%N then utf8_from 3 0x90 0xBF s'
      else if (0xF1 <=? n)%N && (n <=? 0xF3)%N then utf8_from 3 0x80 0xBF s'
      else if (n =? 0xF4)%N then utf8_from 3 0x80 0x8F s'
      else false
    end
  end.

Definition utf8_valid (s : string) : bool := utf8_from 0 0x80 0xBF s.

Definition bytes_decode (b : string) : Py string :=
  if utf8_valid b then ret b else raise UnicodeDecodeError.

(** [StringIO(initial_value)]. *)
Definition StringIO (v : PyVal) : Py PyVal :=
  match v with
  | VStr s => ret (VStringIO s)
  | VNone => ret (VStringIO "")
  | _ => raise (TypeError "initial_value must be str or None")
  end.

(** [hasattr(v, 'get')]: of the values here, the object summaries. *)
Definition hasattr_get (v : PyVal) : bool :=
  match v with
  | VObject _ => true
  | _ => false
  end.

(** ** pandas and pickle

    Neither is code of this repository: the facade is stated over any
    implementation of them.  [pickle_loads] and [pd_read_csv] return
    [None] where the library raises; [to_csv] is the text
    [DataFrame.to_csv(path, index=False, header=True)] writes;
    [pd_read_csv content na] is [read_csv(StringIO(content), na_values=na)]. *)

Class Platform : Type := mkPlatform {
  Model : Type;
  DataFrame : Type;
  pickle_loads : string -> option Model;
  to_csv : DataFrame -> string;
  pd_read_csv : string -> string -> option DataFrame
}.

(** Modelled from the spec: pandas' CSV writer and parser, which are
    not code of this repository, as the spec describes them: a header
    row, then one line per row, the fields separated by commas; on
    reading, the token given as [na_values] is a missing value, as is
    the empty field, which is how a missing value is written.  A table
    has text cells, [None] is a missing value; there is no quoting.
    A model is its own bytes. *)

Fixpoint split_on (sep : ascii) (s : string) : list string :=
  match s with
  | EmptyString => [EmptyString]
  | String c s' =>
    if Ascii.eqb c sep then EmptyString :: split_on sep s'
    else match split_on sep s' with
         | x :: xs => String c x :: xs
         | [] => [String c EmptyString]
         end
  end.

Fixpoint join_with (sep : string) (l : list string) : string :=
  match l with
  | [] => ""
  | [x] => x
  | x :: xs => x ++ sep ++ join_with sep xs
  end.

Record Table : Type := mkTable {
  columns : list string;
  rows : list (list (option string))
}.

Definition newline : string := String (ascii_of_nat 10) EmptyString.

Definition cell_text (c : option string) : string :=
  match c with
  | Some s => s
  | None => ""
  end.

Definition table_to_csv (t : Table) : string :=
  String.concat ""
    (map (fun l => join_with "," l ++ newline)
         (columns t :: map (map cell_text) (rows t))).

Definition parse_cell (na : string) (s : string) : option string :=
  if String.eqb s "" || String.eqb s na then None else Some s.

Definition table_of_csv (content na : string) : option Table :=
  match List.filter (fun l => negb (String.eqb l "")) (split_on (ascii_of_nat 10) content) with
  | [] => None
  | h :: ls =>
    let cols := split_on "," h in
    let rs := map (fun l => map (parse_cell na) (split_on "," l)) ls in
    if forallb (fun r => Nat.eqb (length r) (length cols)) rs
    then Some (mkTable cols rs)
    else None
  end.

Definition text_cells : Platform :=
  mkPlatform string Table
    (fun b => if String.eqb b "" then None else Some b)
    table_to_csv
    table_of_csv.








(** ** The facade *)

Inductive S3Resource : Type := ServiceResource.

Record SimpleStorageService : Type := mkService {
  s3_resource : option S3Resource
}.

(** [__init__]: the resource handle of [S3Client()], refused when it
    is [None]. *)
Definition init (handle : option S3Resource) : Result SimpleStorageService :=
  match handle with
  | None =>
    Raise (MyException (Msg "S3 resource is not initialized. Check S3Client implementation."))
  | Some r => Ok (mkService (Some r))
  end.

(** [self.s3_resource.<attr>]. *)
Definition resource (self : SimpleStorageService) : Py S3Resource :=
  match s3_resource self with
  | Some r => ret r
  | None => raise (AttributeError "'NoneType' object has no attribute")
  end.

Definition get_bucket (self : SimpleStorageService) (bucket_name : string) : Py string :=
  wrapping (
    resource self ;;;
    sdk (ResourceBucket bucket_name) ;;;
    ret bucket_name).

Definition s3_key_path_available (self : SimpleStorageService)
    (bucket_name s3_key : string) : Py bool :=
  try_except (
    bucket <- get_bucket self bucket_name ;;
    file_objects <- objects_filter bucket s3_key ;;
    ret (Nat.ltb 0 (List.length file_objects)))
  (fun e => Some (raise (MyException (Cause e)))).

(** [object_name.get()["Body"].read()]. *)
Definition get_body_read (object_name : PyVal) : Py string :=
  match object_name with
  | VObject o => object_get o
  | _ => raise (AttributeError "object has no attribute 'get'")
  end.

Definition isinstance_str (v : PyVal) : bool :=
  match v with
  | VStr _ => true
  | _ => false
  end.

Definition read_object (object_name : PyVal) (decode make_readable : bool) : Py PyVal :=
  wrapping (
    obj_body <-
      (if hasattr_get object_name then get_body_read object_name
       else if isinstance_str object_name then
         raise (MyException (Msg "Invalid argument: object_name should be a boto3 Object"))
       else raise (MyException (Msg "Invalid argument type for read_object"))) ;;
    content_str <-
      (if decode then (s <- bytes_decode obj_body ;; ret (VStr s))
       else ret (VBytes obj_body)) ;;
    if make_readable then StringIO content_str else ret content_str).

Definition get_file_object (self : SimpleStorageService)
    (filename bucket_name : string) : Py PyVal :=
  wrapping (
    bucket <- get_bucket self bucket_name ;;
    file_objects <- objects_filter bucket filename ;;
    if Nat.eqb (List.length file_objects) 1 then
      match file_objects !! 0%nat with
      | Some o => ret (VObject o)
      | None => raise IndexError
      end
    else ret (VList file_objects)).

(** The truth value of [model_dir], and [f"{model_dir}"]. *)
Definition truthy (o : option string) : bool :=
  match o with
  | Some (String _ _) => true
  | Some EmptyString => false
  | None => false
  end.

Definition format_opt (o : option string) : string :=
  match o with
  | Some s => s
  | None => "None"
  end.

Definition model_file (model_name : string) (model_dir : option string) : string :=
  if truthy model_dir then format_opt model_dir ++ "/" ++ model_name else model_name.

Section Facade.
Context {P : Platform}.

(** [pickle.loads(v)]: the value it returns.  What unpickling may do
    besides, running what the payload names, has no place in the
    world here. *)
Definition loads (v : PyVal) : Py Model :=
  match v with
  | VBytes b =>
    match pickle_loads b with
    | Some m => ret m
    | None => raise UnpicklingError
    end
  | _ => raise (TypeError "a bytes-like object is required")
  end.

Definition load_model (self : SimpleStorageService)
    (model_name bucket_name : string) (model_dir : option string) : Py Model :=
  wrapping (
    file_object <- get_file_object self (model_file model_name model_dir) bucket_name ;;
    model_obj_bytes <- read_object file_object false false ;;
    model <- loads model_obj_bytes ;;
    ret model).

Definition create_folder (self : SimpleStorageService)
    (folder_name bucket_name : string) : Py unit :=
  try_except (
    resource self ;;;
    object_load bucket_name (folder_name ++ "/"))
  (fun e =>
    match is_ClientError e with
    | Some code =>
      Some (if String.eqb code "404"
            then put_object bucket_name (folder_name ++ "/")
            else ret tt)
    | None => None
    end).

Definition upload_file (self : SimpleStorageService)
    (from_filename to_filename bucket_name : string) (remove : bool) : Py unit :=
  wrapping (
    (match s3_resource self with
     | None => raise (MyException (Msg "s3_resource is not initialized"))
     | Some _ => ret tt
     end) ;;;
    client_upload_file from_filename bucket_name to_filename ;;;
    if remove then os_remove from_filename else ret tt).

(** [data_frame.to_csv(local_filename, index=False, header=True)]. *)
Definition to_csv_file (data_frame : DataFrame) (local_filename : string) : Py unit :=
  sdk (ToCsv local_filename) ;;;
  fun w => (Ok tt, set_files (insert local_filename (to_csv data_frame)) w).

Definition upload_df_as_csv (self : SimpleStorageService) (data_frame : DataFrame)
    (local_filename bucket_filename bucket_name : string) : Py unit :=
  wrapping (
    to_csv_file data_frame local_filename ;;;
    upload_file self local_filename bucket_filename bucket_name true).

(** [read_csv(content, na_values="na")] of pandas. *)
Definition pandas_read_csv (content : PyVal) (na_values : string) : Py DataFrame :=
  match content with
  | VStringIO s =>
    match pd_read_csv s na_values with
    | Some df => ret df
    | None => raise ParserError
    end
  | _ => raise (TypeError "Invalid file path or buffer object type")
  end.

Definition get_df_from_object (object_ : PyVal) : Py DataFrame :=
  wrapping (
    content <- read_object object_ true true ;;
    df <- pandas_read_csv content "na" ;;
    ret df).

Definition read_csv (self : SimpleStorageService) (filename bucket_name : string)
    : Py DataFrame :=
  wrapping (
    csv_obj <- get_file_object self filename bucket_name ;;
    df <- get_df_from_object csv_obj ;;
    ret df).

End Facade.

(** ** What the claims speak of *)

(** An object of the bucket whose key starts with the prefix. *)
Definition under_prefix (w : World) (bucket prefix : string) (o : ObjectSummary) : Prop :=
  is_Some (objects w !! (bucket_name o, key o)) /\
  bucket_name o = bucket /\
  String.prefix prefix (key o) = true.

(** The objects stored at exactly this bucket and key. *)
Definition stored_at (w : World) (bucket k : string) : list ObjectSummary :=
  List.filter
    (fun o => String.eqb (bucket_name o) bucket && String.eqb (key o) k)
    (map (fun kv => mkObject (fst (fst kv)) (snd (fst kv))) (map_to_list (objects w))).

(** ** Worlds to run the facade on *)

Definition no_fault : SdkCall -> option PyExc := fun _ => None.

Definition service : SimpleStorageService := mkService (Some ServiceResource).

(** The probe of ["f/"] cannot reach the endpoint. *)
Definition unreachable (c : SdkCall) : option PyExc :=
  match c with
  | ObjectLoad _ _ => Some (BotoCoreError "EndpointConnectionError")
  | _ => None
  end.

(** The bucket may be read and not written. *)
Definition read_only (c : SdkCall) : option PyExc :=
  match c with
  | PutObject _ _ => Some (ClientError "AccessDenied")
  | _ => None
  end.

(** The probe is refused. *)
Definition forbidden (c : SdkCall) : option PyExc :=
  match c with
  | ObjectLoad _ _ => Some (ClientError "403")
  | _ => None
  end.

Definition empty_world (f : SdkCall -> option PyExc) : World := mkWorld ∅ ∅ f [].

(** One bucket with a table and a backup of it next to it, a model,
    and a local file. *)
Definition bucket_b : World :=
  mkWorld
    (list_to_map [(("b", "data.csv"), "a,b" ++ newline ++ "1,na" ++ newline);
                  (("b", "data.csv.bak"), "x");
                  (("b", "models/m.pkl"), "MODEL")])
    (list_to_map [("local.csv", "zz")])
    no_fault [].

(** A table with a missing value. *)
Definition small_table : Table := mkTable ["a"; "b"] [[Some "1"; None]].


(** ** Frames *)

(** The backend and the local files of [w'] are those of [w]. *)
Definition same_store (w w' : World) : Prop :=
  objects w' = objects w /\ files w' = files w.

(** A computation that reads the backend and the local files and
    writes neither, whether it returns or raises. *)
Definition preserves {A : Type} (m : Py A) : Prop :=
  forall w, same_store w (snd (m w)).

(** ** More worlds *)

Definition with_fault (f : SdkCall -> option PyExc) (w : World) : World :=
  mkWorld (objects w) (files w) f (trace w).

(** The upload is refused. *)
Definition upload_refused (c : SdkCall) : option PyExc :=
  match c with
  | ClientUploadFile _ _ _ => Some (ClientError "AccessDenied")
  | _ => None
  end.

(** The local file cannot be removed. *)
Definition remove_refused (c : SdkCall) : option PyExc :=
  match c with
  | OsRemove path => Some (FileNotFoundError path)
  | _ => None
  end.

(** The bucket handle cannot be built. *)
Definition bucket_refused (c : SdkCall) : option PyExc :=
  match c with
  | ResourceBucket _ => Some (BotoCoreError "ParamValidationError")
  | _ => None
  end.

(** The listing is refused. *)
Definition listing_refused (c : SdkCall) : option PyExc :=
  match c with
  | ObjectsFilter _ _ => Some (ClientError "AccessDenied")
  | _ => None
  end.

(** A bucket with an object that is not UTF-8 and an empty one. *)
Definition bucket_raw : World :=
  mkWorld
    (list_to_map [(("r", "blob"), String (ascii_of_nat 255) EmptyString);
                  (("r", "empty.csv"), "")])
    ∅ no_fault [].

(** ** Properties *)

(** *** The monad and the SDK *)

(** Runs the monad as far as the world is known. *)
Ltac py_run :=
  cbv beta iota zeta delta
    [wrapping try_except bind ret raise sdk
     objects_filter object_get object_load put_object client_upload_file os_remove
     bytes_decode StringIO get_body_read resource];
  simpl.

Lemma wrapping_raise {A : Type} (m : Py A) (w w' : World) (e : PyExc) :
  wrapping m w = (Raise e, w') -> exists e0, e = MyException (Cause e0).
Proof.
  unfold wrapping, try_except, raise.
  destruct (m w) as [[a|e0] w0]; intros H; inversion H; subst.
  exists e0; reflexivity.
Qed.

Lemma wrapping_ok {A : Type} (m : Py A) (w w' : World) (a : A) :
  m w = (Ok a, w') -> wrapping m w = (Ok a, w').
Proof. intros H. unfold wrapping, try_except. rewrite H. reflexivity. Qed.

Lemma wrapping_fail {A : Type} (m : Py A) (w w' : World) (e : PyExc) :
  m w = (Raise e, w') -> wrapping m w = (Raise (MyException (Cause e)), w').
Proof. intros H. unfold wrapping, try_except. rewrite H. reflexivity. Qed.

Lemma bind_ok {A B : Type} (m : Py A) (k : A -> Py B) (w w' : World) (a : A) :
  m w = (Ok a, w') -> bind m k w = k a w'.
Proof. intros H. unfold bind. rewrite H. reflexivity. Qed.

Lemma bind_fail {A B : Type} (m : Py A) (k : A -> Py B) (w w' : World) (e : PyExc) :
  m w = (Raise e, w') -> bind m k w = (Raise e, w').
Proof. intros H. unfold bind. rewrite H. reflexivity. Qed.

Lemma sdk_ok (c : SdkCall) (w : World) :
  fault w c = None -> sdk c w = (Ok tt, log_call c w).
Proof. intros H. unfold sdk. rewrite H. reflexivity. Qed.

Lemma sdk_fail (c : SdkCall) (w : World) (e : PyExc) :
  fault w c = Some e -> sdk c w = (Raise e, log_call c w).
Proof. intros H. unfold sdk. rewrite H. reflexivity. Qed.

(** A facade that [__init__] built holds a resource handle. *)
Lemma init_resource (handle : option S3Resource) (self : SimpleStorageService) :
  init handle = Ok self -> s3_resource self = Some ServiceResource.
Proof.
  destruct handle as [[]|]; simpl; intros H; inversion H; reflexivity.
Qed.

(** X1.  Every operation but [create_folder] ends in the handler
    [except Exception as e: raise MyException(e, sys)]: what it
    raises is a [MyException] built from the exception caught. *)
Lemma facade_wraps `{P : Platform} (self : SimpleStorageService) (w w' : World) (e : PyExc) :
  (forall b, get_bucket self b w = (Raise e, w') -> is_MyException e = true) /\
  (forall b k, s3_key_path_available self b k w = (Raise e, w') -> is_MyException e = true) /\
  (forall v d r, read_object v d r w = (Raise e, w') -> is_MyException e = true) /\
  (forall f b, get_file_object self f b w = (Raise e, w') -> is_MyException e = true) /\
  (forall n b d, load_model self n b d w = (Raise e, w') -> is_MyException e = true) /\
  (forall f t b r, upload_file self f t b r w = (Raise e, w') -> is_MyException e = true) /\
  (forall df l k b, upload_df_as_csv self df l k b w = (Raise e, w') -> is_MyException e = true) /\
  (forall v, get_df_from_object v w = (Raise e, w') -> is_MyException e = true) /\
  (forall f b, read_csv self f b w = (Raise e, w') -> is_MyException e = true).
Proof.
  repeat split; intros;
    match goal with
    | H : _ = (Raise _, _) |- _ => apply wrapping_raise in H; destruct H as [e0 ->]
    end; reflexivity.
Qed.

(** *** create_folder and the uniform error *)

(** C1.  The claim: every operation raises only the wrapped error
    [MyException].  [create_folder] has no such handler, unlike its
    nine siblings ([facade_wraps]): an endpoint that cannot be reached
    during the probe, and a refused [put_object] after a 404, both
    reach the caller as the SDK raised them. *)
Theorem create_folder_raises_unwrapped :
  create_folder service "f" "b" (empty_world unreachable)
    = (Raise (BotoCoreError "EndpointConnectionError"),
       mkWorld ∅ ∅ unreachable [ObjectLoad "b" "f/"]) /\
  create_folder service "f" "b" (empty_world read_only)
    = (Raise (ClientError "AccessDenied"),
       mkWorld ∅ ∅ read_only [PutObject "b" "f/"; ObjectLoad "b" "f/"]) /\
  is_MyException (BotoCoreError "EndpointConnectionError") = false /\
  is_MyException (ClientError "AccessDenied") = false.
Proof. repeat split; reflexivity. Qed.

Lemma object_load_objects (bucket k : string) (w w1 : World) (r : Result unit) :
  object_load bucket k w = (r, w1) ->
  objects w1 = objects w /\ files w1 = files w /\ fault w1 = fault w /\
  trace w1 = ObjectLoad bucket k :: trace w.
Proof.
  unfold object_load, bind, sdk.
  destruct (fault w (ObjectLoad bucket k)); simpl.
  - intros H; inversion H; subst; auto.
  - destruct (objects w !! (bucket, k)); intros H; inversion H; subst; auto.
Qed.

(** C2, as stated: a probe failure other than the 404 is swallowed.
    It is false for a failure that is not a [ClientError]: the handler
    is [except ClientError], so an unreachable endpoint is raised. *)
Lemma create_folder_probe_failure_raised :
  ~ (forall (self : SimpleStorageService) (folder bucket : string) (w w1 : World) (e : PyExc),
        s3_resource self = Some ServiceResource ->
        object_load bucket (folder ++ "/") w = (Raise e, w1) ->
        e <> ClientError "404" ->
        fst (create_folder self folder bucket w) = Ok tt).
Proof.
  intros H.
  specialize (H service "f" "b" (empty_world unreachable)
                (mkWorld ∅ ∅ unreachable [ObjectLoad "b" "f/"])
                (BotoCoreError "EndpointConnectionError")
                eq_refl eq_refl).
  assert (Hne : BotoCoreError "EndpointConnectionError" <> ClientError "404")
    by discriminate.
  specialize (H Hne). vm_compute in H. discriminate H.
Qed.

(** C2, amended: a probe that fails with a [ClientError] whose code is
    not "404" is swallowed; [create_folder] returns, having made no
    other call, and the backend and the local files are as before. *)
Theorem create_folder_swallows_client_error
    (self : SimpleStorageService) (folder bucket code : string) (w w1 : World) :
  s3_resource self = Some ServiceResource ->
  object_load bucket (folder ++ "/") w = (Raise (ClientError code), w1) ->
  code <> "404" ->
  create_folder self folder bucket w = (Ok tt, w1) /\
  objects w1 = objects w /\ files w1 = files w /\
  trace w1 = ObjectLoad bucket (folder ++ "/") :: trace w.
Proof.
  intros Hres Hprobe Hcode.
  split; [| destruct (object_load_objects _ _ _ _ _ Hprobe) as (? & ? & _ & ?); auto].
  unfold create_folder, try_except, resource. rewrite Hres.
  unfold bind at 1. unfold ret at 1. rewrite Hprobe. simpl.
  destruct (String.eqb_spec code "404") as [->|_]; [contradiction | reflexivity].
Qed.

Lemma create_folder_swallows_client_error_witness :
  create_folder service "f" "b" (empty_world forbidden)
    = (Ok tt, mkWorld ∅ ∅ forbidden [ObjectLoad "b" "f/"]).
Proof.
  apply (create_folder_swallows_client_error service "f" "b" "403"
           (empty_world forbidden) (mkWorld ∅ ∅ forbidden [ObjectLoad "b" "f/"])).
  - reflexivity.
  - reflexivity.
  - discriminate.
Defined.

(** *** read_object *)

(** C6.  Given a plain string, [read_object] fails with the argument
    error (wrapped by its own handler) and calls nothing: the world,
    and with it the record of calls, is the one it was given, so no
    request has gone to the network. *)
Theorem read_object_str_argument_error (s : string) (decode make_readable : bool) (w : World) :
  read_object (VStr s) decode make_readable w
    = (Raise (MyException (Cause (MyException
         (Msg "Invalid argument: object_name should be a boto3 Object")))), w) /\
  (forall e w', read_object (VStr s) decode make_readable w = (Raise e, w') ->
     root_cause e = Msg "Invalid argument: object_name should be a boto3 Object") /\
  trace (snd (read_object (VStr s) decode make_readable w)) = trace w /\
  List.filter is_network (trace (snd (read_object (VStr s) decode make_readable w)))
    = List.filter is_network (trace w).
Proof.
  split; [reflexivity |]. split; [| split; reflexivity].
  intros e w' H. inversion H. reflexivity.
Qed.

Lemma read_object_str_argument_error_witness :
  root_cause (MyException (Cause (MyException
    (Msg "Invalid argument: object_name should be a boto3 Object"))))
    = Msg "Invalid argument: object_name should be a boto3 Object".
Proof.
  apply (proj1 (proj2 (read_object_str_argument_error "models/m.pkl" true false bucket_b))
           _ bucket_b).
  reflexivity.
Defined.

(** C10.  With [decode=False] and [make_readable=True] an object
    reference never yields a buffer: the call raises the wrapped
    error, which is the [TypeError] of [StringIO] over bytes once the
    body has been fetched; and whenever [make_readable=True] returns,
    [decode] was [True]. *)
Theorem read_object_readable_needs_decode :
  (forall (o : ObjectSummary) (w : World),
      exists e w', read_object (VObject o) false true w = (Raise (MyException (Cause e)), w')) /\
  (forall (o : ObjectSummary) (w : World) (body : string),
      fault w (ObjectGet (bucket_name o) (key o)) = None ->
      objects w !! (bucket_name o, key o) = Some body ->
      read_object (VObject o) false true w
        = (Raise (MyException (Cause (TypeError "initial_value must be str or None"))),
           log_call (ObjectGet (bucket_name o) (key o)) w)) /\
  (forall (v : PyVal) (decode : bool) (w w' : World) (r : PyVal),
      read_object v decode true w = (Ok r, w') -> decode = true).
Proof.
  split; [| split].
  - intros o w. unfold read_object. py_run.
    destruct (fault w (ObjectGet (bucket_name o) (key o))); simpl; [eauto |].
    destruct (objects w !! (bucket_name o, key o)); simpl; eauto.
  - intros o w body Hf Hb. unfold read_object. py_run.
    rewrite Hf; simpl. rewrite Hb; simpl. reflexivity.
  - intros v [|] w w' r H; [reflexivity | exfalso].
    unfold read_object, wrapping, try_except, bind in H.
    destruct (hasattr_get v);
      [ destruct (get_body_read v w) as [[b|e] w0]
      | destruct (isinstance_str v) ]; simpl in H; discriminate H.
Qed.

Lemma read_object_readable_needs_decode_witness :
  read_object (VObject (mkObject "b" "data.csv.bak")) false true bucket_b
    = (Raise (MyException (Cause (TypeError "initial_value must be str or None"))),
       log_call (ObjectGet "b" "data.csv.bak") bucket_b) /\
  fst (read_object (VObject (mkObject "b" "data.csv.bak")) true true bucket_b)
    = Ok (VStringIO "x").
Proof.
  split.
  - apply (proj1 (proj2 read_object_readable_needs_decode)
             (mkObject "b" "data.csv.bak") bucket_b "x"); reflexivity.
  - reflexivity.
Defined.

(** *** Listing by prefix *)

Lemma In_matching (m : gmap (string * string) string) (bucket prefix : string)
    (o : ObjectSummary) :
  In o (matching m bucket prefix) <->
  is_Some (m !! (bucket_name o, key o)) /\
  bucket_name o = bucket /\ String.prefix prefix (key o) = true.
Proof.
  unfold matching. rewrite in_map_iff. split.
  - intros [[[b k] v] [<- Hin]]. apply filter_In in Hin as [Hin Hm].
    apply list_elem_of_In, elem_of_map_to_list in Hin.
    unfold matches in Hm. simpl in *.
    apply andb_true_iff in Hm as [Hb Hp]. apply String.eqb_eq in Hb.
    split; [rewrite Hin; eauto | auto].
  - destruct o as [b k]. simpl. intros [[v Hv] [-> Hp]].
    exists ((bucket, k), v). split; [reflexivity |].
    apply filter_In. split.
    + apply list_elem_of_In, elem_of_map_to_list. exact Hv.
    + unfold matches. simpl. rewrite String.eqb_refl, Hp. reflexivity.
Qed.

Lemma NoDup_summaries (P : (string * string) * string -> bool)
    (l : list ((string * string) * string)) :
  NoDup (map fst l) ->
  NoDup (map (fun kv => mkObject (fst (fst kv)) (snd (fst kv))) (List.filter P l)).
Proof.
  induction l as [|[[b k] v] l IH]; simpl; intros Hnd.
  - constructor.
  - apply NoDup_cons in Hnd as [Hnotin Hnd].
    destruct (P (b, k, v)); simpl; [| auto].
    apply NoDup_cons. split; [| auto].
    intros Hin. apply Hnotin.
    apply list_elem_of_In, in_map_iff in Hin as [[[b' k'] v'] [Heq Hin]].
    simpl in Heq. inversion Heq; subst.
    apply filter_In in Hin as [Hin _].
    apply list_elem_of_In, in_map_iff. exists (b, k, v'). auto.
Qed.

Lemma NoDup_matching (m : gmap (string * string) string) (bucket prefix : string) :
  NoDup (matching m bucket prefix).
Proof. apply NoDup_summaries, NoDup_fst_map_to_list. Qed.

(** A list without repetitions has one element exactly when some [x]
    is the only thing in it. *)
Lemma NoDup_length_one {A : Type} (l : list A) :
  NoDup l ->
  (List.length l = 1 <-> exists x, forall y, In y l <-> y = x).
Proof.
  intros Hnd. split.
  - destruct l as [|x [|z l]]; simpl; try discriminate.
    intros _. exists x. intros y. split; [intros [->|[]]; reflexivity | intros ->; auto].
  - intros [x Hx]. destruct l as [|a [|b l]]; simpl.
    + exfalso. apply (proj2 (Hx x) eq_refl).
    + reflexivity.
    + exfalso.
      assert (a = x) by (apply Hx; simpl; auto).
      assert (b = x) by (apply Hx; simpl; auto).
      subst. apply NoDup_cons in Hnd as [Hnotin _].
      apply Hnotin. constructor.
Qed.

Lemma listing_ok (self : SimpleStorageService) (bucket prefix : string) (w : World) :
  s3_resource self = Some ServiceResource ->
  fault w (ResourceBucket bucket) = None ->
  fault w (ObjectsFilter bucket prefix) = None ->
  bind (get_bucket self bucket) (fun b => objects_filter b prefix) w
    = (Ok (matching (objects w) bucket prefix),
       log_call (ObjectsFilter bucket prefix) (log_call (ResourceBucket bucket) w)).
Proof.
  intros Hres Hb Hl. unfold get_bucket. py_run.
  rewrite Hres. simpl. rewrite Hb. simpl. rewrite Hl. reflexivity.
Qed.

(** C9.  When the listing goes through, [s3_key_path_available]
    returns [True] exactly when some object of the bucket has a key
    that starts with the prefix, and [False] when none has. *)
Theorem s3_key_path_available_iff
    (self : SimpleStorageService) (bucket s3_key : string) (w : World) :
  s3_resource self = Some ServiceResource ->
  fault w (ResourceBucket bucket) = None ->
  fault w (ObjectsFilter bucket s3_key) = None ->
  exists (b : bool) (w' : World),
    s3_key_path_available self bucket s3_key w = (Ok b, w') /\
    (b = true <-> exists o, under_prefix w bucket s3_key o) /\
    (b = false <-> forall o, ~ under_prefix w bucket s3_key o).
Proof.
  intros Hres Hb Hl.
  pose proof (listing_ok self bucket s3_key w Hres Hb Hl) as Hlist.
  exists (Nat.ltb 0 (List.length (matching (objects w) bucket s3_key))).
  eexists. split.
  - unfold s3_key_path_available, try_except.
    unfold bind in Hlist |- *.
    destruct (get_bucket self bucket w) as [[b0|e0] w0]; [| discriminate Hlist].
    rewrite Hlist. reflexivity.
  - assert (Hex : (exists o, under_prefix w bucket s3_key o) <->
                  matching (objects w) bucket s3_key <> []).
    { split.
      - intros [o Ho] Hnil. apply In_matching in Ho. rewrite Hnil in Ho. destruct Ho.
      - destruct (matching (objects w) bucket s3_key) as [|o l] eqn:E; [congruence |].
        intros _. exists o. apply In_matching. rewrite E. simpl; auto. }
    destruct (matching (objects w) bucket s3_key) as [|o l]; simpl.
    + split; split; try discriminate; try reflexivity.
      * intros H. apply Hex in H. congruence.
      * intros _ o Ho. assert (H : ([] : list ObjectSummary) <> []) by (apply Hex; eauto).
        congruence.
    + split; split; try discriminate; try reflexivity.
      * intros _. apply Hex. discriminate.
      * intros H. exfalso.
        assert (Hx : exists o', under_prefix w bucket s3_key o') by (apply Hex; discriminate).
        destruct Hx as [o' Ho']. exact (H o' Ho').
Qed.

Lemma s3_key_path_available_iff_witness :
  exists (b : bool) (w' : World),
    s3_key_path_available service "b" "data" bucket_b = (Ok b, w') /\
    (b = true <-> exists o, under_prefix bucket_b "b" "data" o) /\
    (b = false <-> forall o, ~ under_prefix bucket_b "b" "data" o).
Proof.
  apply (s3_key_path_available_iff service "b" "data" bucket_b); reflexivity.
Defined.

(** C3.  When the listing goes through, [get_file_object] returns a
    bare object exactly when one object and no other has a key that
    starts with [filename]; it is then that object.  For any other
    number of matches, none or several, it returns the whole list. *)
Theorem get_file_object_bare_iff_single
    (self : SimpleStorageService) (filename bucket : string) (w : World) :
  s3_resource self = Some ServiceResource ->
  fault w (ResourceBucket bucket) = None ->
  fault w (ObjectsFilter bucket filename) = None ->
  exists (v : PyVal) (w' : World),
    get_file_object self filename bucket w = (Ok v, w') /\
    ((exists o, v = VObject o) <->
     (exists o, forall o', under_prefix w bucket filename o' <-> o' = o)) /\
    (forall o, v = VObject o -> matching (objects w) bucket filename = [o]) /\
    (List.length (matching (objects w) bucket filename) <> 1 ->
     v = VList (matching (objects w) bucket filename)).
Proof.
  intros Hres Hb Hl.
  pose proof (listing_ok self bucket filename w Hres Hb Hl) as Hlist.
  pose proof (NoDup_length_one _ (NoDup_matching (objects w) bucket filename)) as Hone.
  assert (Hin : forall o, In o (matching (objects w) bucket filename)
                          <-> under_prefix w bucket filename o)
    by (intros o; apply In_matching).
  assert (Hrun : forall v,
    (if Nat.eqb (List.length (matching (objects w) bucket filename)) 1
     then match matching (objects w) bucket filename !! 0%nat with
          | Some o => VObject o
          | None => VList []
          end
     else VList (matching (objects w) bucket filename)) = v ->
    get_file_object self filename bucket w
      = (Ok v, log_call (ObjectsFilter bucket filename) (log_call (ResourceBucket bucket) w))).
  { intros v <-. unfold get_file_object. apply wrapping_ok.
    unfold bind in Hlist |- *.
    destruct (get_bucket self bucket w) as [[b0|e0] w0]; [| discriminate Hlist].
    rewrite Hlist.
    destruct (matching (objects w) bucket filename) as [|o [|o2 l]]; reflexivity. }
  destruct (matching (objects w) bucket filename) as [|o [|o2 l]] eqn:E.
  - exists (VList []). eexists. split; [apply Hrun; reflexivity |].
    split; [| split].
    + split; [intros [o Ho]; discriminate Ho |].
      intros [x Hx]. exfalso. apply (proj2 (Hin x)), Hx. reflexivity.
    + intros o Ho. discriminate Ho.
    + reflexivity.
  - exists (VObject o). eexists. split; [apply Hrun; reflexivity |].
    split; [| split].
    + split; [| eauto]. intros _. exists o. intros o'. rewrite <- Hin.
      split; [intros [->|[]]; reflexivity | intros ->; left; reflexivity].
    + intros o' Ho'. inversion Ho'. reflexivity.
    + intros H. exfalso. apply H. reflexivity.
  - exists (VList (o :: o2 :: l)). eexists. split; [apply Hrun; reflexivity |].
    split; [| split].
    + split; [intros [o' Ho']; discriminate Ho' |].
      intros [x Hx]. exfalso.
      assert (Hlen : List.length (o :: o2 :: l) = 1).
      { apply Hone. exists x. intros y. rewrite Hin. apply Hx. }
      discriminate Hlen.
    + intros o' Ho'. discriminate Ho'.
    + reflexivity.
Qed.

Lemma get_file_object_bare_iff_single_witness :
  fst (get_file_object service "data.csv.bak" "b" bucket_b)
    = Ok (VObject (mkObject "b" "data.csv.bak")) /\
  exists (v : PyVal) (w' : World),
    get_file_object service "data.csv" "b" bucket_b = (Ok v, w') /\
    ((exists o, v = VObject o) <->
     (exists o, forall o', under_prefix bucket_b "b" "data.csv" o' <-> o' = o)) /\
    (forall o, v = VObject o -> matching (objects bucket_b) "b" "data.csv" = [o]) /\
    (List.length (matching (objects bucket_b) "b" "data.csv") <> 1 ->
     v = VList (matching (objects bucket_b) "b" "data.csv")).
Proof.
  split; [reflexivity |].
  apply (get_file_object_bare_iff_single service "data.csv" "b" bucket_b); reflexivity.
Defined.

(** *** The folder marker *)

Lemma In_stored_at (w : World) (bucket k : string) (o : ObjectSummary) :
  In o (stored_at w bucket k) <->
  o = mkObject bucket k /\ is_Some (objects w !! (bucket, k)).
Proof.
  unfold stored_at. rewrite filter_In, in_map_iff, andb_true_iff, !String.eqb_eq.
  split.
  - intros [[[[b k'] v] [<- Hin]] [Hb Hk]]. simpl in *. subst.
    apply list_elem_of_In, elem_of_map_to_list in Hin.
    split; [reflexivity | rewrite Hin; eauto].
  - intros [-> [v Hv]]. simpl. split; [| auto].
    exists ((bucket, k), v). split; [reflexivity |].
    apply list_elem_of_In, elem_of_map_to_list. exact Hv.
Qed.

Lemma NoDup_filter_bool {A : Type} (f : A -> bool) (l : list A) :
  NoDup l -> NoDup (List.filter f l).
Proof.
  induction l as [|x l IH]; simpl; intros Hnd; [constructor |].
  apply NoDup_cons in Hnd as [Hx Hnd].
  destruct (f x); [| auto].
  apply NoDup_cons. split; [| auto].
  intros Hin. apply Hx, list_elem_of_In.
  apply list_elem_of_In, filter_In in Hin. tauto.
Qed.

Lemma NoDup_stored_at (w : World) (bucket k : string) : NoDup (stored_at w bucket k).
Proof.
  unfold stored_at. apply NoDup_filter_bool.
  rewrite <- (forallb_filter_id (fun _ => true) (map_to_list (objects w))).
  - apply NoDup_summaries, NoDup_fst_map_to_list.
  - apply forallb_forall. reflexivity.
Qed.

Lemma stored_at_one (w : World) (bucket k : string) :
  is_Some (objects w !! (bucket, k)) -> List.length (stored_at w bucket k) = 1.
Proof.
  intros Hs. apply NoDup_length_one; [apply NoDup_stored_at |].
  exists (mkObject bucket k). intros y. rewrite In_stored_at. tauto.
Qed.

(** C4.  On a backend that answers the probe and accepts the write,
    two calls of [create_folder] in sequence both return; after them
    the bucket holds one object at [folder_name + "/"]; the second call
    only probes, it leaves the backend and the local files as the first
    left them.  The first call writes the zero-byte marker when the key
    was free and nothing when it was taken. *)
Theorem create_folder_idempotent
    (self : SimpleStorageService) (folder bucket : string) (w : World) :
  s3_resource self = Some ServiceResource ->
  fault w (ObjectLoad bucket (folder ++ "/")) = None ->
  fault w (PutObject bucket (folder ++ "/")) = None ->
  exists w1 w2 : World,
    create_folder self folder bucket w = (Ok tt, w1) /\
    create_folder self folder bucket w1 = (Ok tt, w2) /\
    w2 = log_call (ObjectLoad bucket (folder ++ "/")) w1 /\
    objects w2 = objects w1 /\ files w2 = files w1 /\ files w1 = files w /\
    List.length (stored_at w2 bucket (folder ++ "/")) = 1 /\
    (objects w !! (bucket, folder ++ "/") = None ->
     objects w1 = <[(bucket, folder ++ "/") := ""]> (objects w)) /\
    (is_Some (objects w !! (bucket, folder ++ "/")) -> objects w1 = objects w).
Proof.
  intros Hres Hload Hput.
  destruct (objects w !! (bucket, folder ++ "/")) as [body|] eqn:Hm.
  - exists (log_call (ObjectLoad bucket (folder ++ "/")) w).
    eexists. split; [| split; [| split; [reflexivity |]]].
    + unfold create_folder. py_run. rewrite Hres. simpl.
      rewrite Hload. simpl. rewrite Hm. reflexivity.
    + unfold create_folder. py_run. rewrite Hres. simpl.
      rewrite Hload. simpl. rewrite Hm. reflexivity.
    + repeat split; try reflexivity.
      * apply stored_at_one. simpl. rewrite Hm. eauto.
      * discriminate.
  - exists (set_objects (insert (bucket, folder ++ "/") "")
             (log_call (PutObject bucket (folder ++ "/"))
                (log_call (ObjectLoad bucket (folder ++ "/")) w))).
    eexists. split; [| split; [| split; [reflexivity |]]].
    + unfold create_folder. py_run. rewrite Hres. simpl.
      rewrite Hload. simpl. rewrite Hm. simpl. rewrite Hput. reflexivity.
    + unfold create_folder. py_run. rewrite Hres. simpl.
      rewrite Hload. simpl. rewrite lookup_insert_eq. reflexivity.
    + repeat split; try reflexivity.
      * apply stored_at_one. simpl. rewrite lookup_insert_eq. eauto.
      * intros [x Hx]. discriminate Hx.
Qed.

Lemma create_folder_idempotent_witness :
  exists w1 w2 : World,
    create_folder service "f" "b" bucket_b = (Ok tt, w1) /\
    create_folder service "f" "b" w1 = (Ok tt, w2) /\
    w2 = log_call (ObjectLoad "b" "f/") w1 /\
    objects w2 = objects w1 /\ files w2 = files w1 /\ files w1 = files bucket_b /\
    List.length (stored_at w2 "b" "f/") = 1 /\
    (objects bucket_b !! ("b", "f/") = None ->
     objects w1 = <[("b", "f/") := ""]> (objects bucket_b)) /\
    (is_Some (objects bucket_b !! ("b", "f/")) -> objects w1 = objects bucket_b).
Proof.
  apply (create_folder_idempotent service "f" "b" bucket_b); reflexivity.
Defined.

(** *** load_model *)

(** C5, as stated: the key is [model_dir/model_name] whenever a
    directory is given.  The test is on the truth value of
    [model_dir]: given the empty string, the key is the bare name. *)
Lemma model_file_empty_dir :
  ~ (forall model_name model_dir : string,
        model_file model_name (Some model_dir) = model_dir ++ "/" ++ model_name).
Proof.
  intros H. specialize (H "m.pkl" ""). vm_compute in H. discriminate H.
Qed.

Lemma read_object_trace (v : PyVal) (decode make_readable : bool) (w : World) :
  exists l, trace (snd (read_object v decode make_readable w)) = (l ++ trace w)%list.
Proof.
  unfold read_object. py_run.
  destruct v as [| s | b | s | o | l0]; simpl; try (exists []; reflexivity).
  destruct (fault w (ObjectGet (bucket_name o) (key o))); simpl;
    [exists [ObjectGet (bucket_name o) (key o)]; reflexivity |].
  destruct (objects w !! (bucket_name o, key o)) as [body|]; simpl;
    [| exists [ObjectGet (bucket_name o) (key o)]; reflexivity].
  destruct decode; [destruct (utf8_valid body) |]; destruct make_readable; simpl;
    exists [ObjectGet (bucket_name o) (key o)]; reflexivity.
Qed.

(** C5, amended.  [load_model] builds the key [model_dir/model_name]
    when [model_dir] is a non-empty string, and [model_name] when it is
    [None] or empty; that key is the prefix it lists the bucket by. *)
Theorem load_model_key `{P : Platform}
    (self : SimpleStorageService) (model_name bucket : string)
    (model_dir : option string) (w : World) :
  (forall d, d <> "" -> model_file model_name (Some d) = d ++ "/" ++ model_name) /\
  model_file model_name (Some "") = model_name /\
  model_file model_name None = model_name /\
  (s3_resource self = Some ServiceResource ->
   fault w (ResourceBucket bucket) = None ->
   exists l,
     trace (snd (load_model self model_name bucket model_dir w))
       = (l ++ [ObjectsFilter bucket (model_file model_name model_dir);
                ResourceBucket bucket] ++ trace w)%list).
Proof.
  split; [| split; [| split]]; try reflexivity.
  - intros [|c d] Hd; [contradiction | reflexivity].
  - intros Hres Hb.
    unfold load_model, get_file_object, get_bucket.
    cbv beta iota zeta delta [wrapping try_except bind ret raise sdk objects_filter resource].
    generalize (model_file model_name model_dir). intros k.
    rewrite Hres. simpl. rewrite Hb. simpl.
    destruct (fault w (ObjectsFilter bucket k)); simpl; [exists []; reflexivity |].
    destruct (matching (objects w) bucket k) as [|o [|o2 l0]]; simpl;
      try (exists []; reflexivity).
    destruct (read_object_trace (VObject o) false false
                (log_call (ObjectsFilter bucket k) (log_call (ResourceBucket bucket) w)))
      as [l Hl].
    exists l.
    destruct (read_object (VObject o) false false _) as [[v|e] w1]; simpl in *;
      [| exact Hl].
    unfold loads. destruct v; simpl; try exact Hl.
    destruct (pickle_loads b); simpl; exact Hl.
Qed.

Lemma load_model_key_witness :
  model_file "m.pkl" (Some "models") = "models/m.pkl" /\
  model_file "m.pkl" None = "m.pkl" /\
  exists l,
    trace (snd (@load_model text_cells service "m.pkl" "b" (Some "models") bucket_b))
      = (l ++ [ObjectsFilter "b" "models/m.pkl"; ResourceBucket "b"] ++ trace bucket_b)%list.
Proof.
  pose proof (@load_model_key text_cells service "m.pkl" "b" (Some "models") bucket_b)
    as (Hdir & _ & Hnone & Htrace).
  split; [apply Hdir; discriminate |].
  split; [exact Hnone |].
  apply Htrace; reflexivity.
Defined.

(** *** upload_file *)

(** C8.  With the local file there and the upload accepted,
    [upload_file] stores its content under the key; with [remove=True]
    (and [os.remove] going through) the local file is gone afterwards,
    with [remove=False] the local files are as they were. *)
Theorem upload_file_remove
    (self : SimpleStorageService) (from_filename to_filename bucket body : string)
    (w : World) :
  s3_resource self = Some ServiceResource ->
  files w !! from_filename = Some body ->
  fault w (ClientUploadFile from_filename bucket to_filename) = None ->
  (fault w (OsRemove from_filename) = None ->
   exists w1,
     upload_file self from_filename to_filename bucket true w = (Ok tt, w1) /\
     files w1 = delete from_filename (files w) /\
     files w1 !! from_filename = None /\
     objects w1 !! (bucket, to_filename) = Some body) /\
  (exists w2,
     upload_file self from_filename to_filename bucket false w = (Ok tt, w2) /\
     files w2 = files w /\
     files w2 !! from_filename = Some body /\
     objects w2 !! (bucket, to_filename) = Some body).
Proof.
  intros Hres Hfile Hup. split.
  - intros Hrm. eexists. split.
    + unfold upload_file. py_run. rewrite Hres. simpl.
      rewrite Hup. simpl. rewrite Hfile. simpl. rewrite Hrm. simpl.
      rewrite Hfile. reflexivity.
    + simpl. split; [reflexivity |].
      split; [apply lookup_delete_eq | apply lookup_insert_eq].
  - eexists. split.
    + unfold upload_file. py_run. rewrite Hres. simpl.
      rewrite Hup. simpl. rewrite Hfile. reflexivity.
    + simpl. split; [reflexivity |].
      split; [exact Hfile | apply lookup_insert_eq].
Qed.

Lemma upload_file_remove_witness :
  (exists w1,
     upload_file service "local.csv" "k" "b" true bucket_b = (Ok tt, w1) /\
     files w1 = delete "local.csv" (files bucket_b) /\
     files w1 !! "local.csv" = None /\
     objects w1 !! ("b", "k") = Some "zz") /\
  (exists w2,
     upload_file service "local.csv" "k" "b" false bucket_b = (Ok tt, w2) /\
     files w2 = files bucket_b /\
     files w2 !! "local.csv" = Some "zz" /\
     objects w2 !! ("b", "k") = Some "zz").
Proof.
  destruct (upload_file_remove service "local.csv" "k" "b" "zz" bucket_b
              eq_refl eq_refl eq_refl) as [Hrm Hkeep].
  split; [apply Hrm; reflexivity | exact Hkeep].
Defined.

(** *** The round trip through a CSV object *)

Lemma prefix_refl (s : string) : String.prefix s s = true.
Proof.
  induction s as [|a s IH]; simpl; [reflexivity |].
  destruct (ascii_dec a a); [exact IH | contradiction].
Qed.






(** **** The CSV text of a plain table reads back *)

















(** ** Further properties of the facade *)

(** *** What is raised *)

Lemma facade_wraps_witness :
  is_MyException (MyException (Cause (ClientError "AccessDenied"))) = true.
Proof.
  apply (proj1 (proj2 (@facade_wraps text_cells service
                         (with_fault listing_refused bucket_b)
                         (log_call (ObjectsFilter "b" "data")
                            (log_call (ResourceBucket "b")
                               (with_fault listing_refused bucket_b)))
                         (MyException (Cause (ClientError "AccessDenied")))))
           "b" "data").
  reflexivity.
Defined.

(** *** What is left untouched *)

Lemma same_store_refl (w : World) : same_store w w.
Proof. split; reflexivity. Qed.

Lemma same_store_trans (w1 w2 w3 : World) :
  same_store w1 w2 -> same_store w2 w3 -> same_store w1 w3.
Proof. intros [Ho Hf] [Ho' Hf']. split; congruence. Qed.

Lemma preserves_ret {A : Type} (a : A) : preserves (ret a).
Proof. intros w. apply same_store_refl. Qed.

Lemma preserves_raise {A : Type} (e : PyExc) : preserves (@raise A e).
Proof. intros w. apply same_store_refl. Qed.

Lemma preserves_bind {A B : Type} (m : Py A) (k : A -> Py B) :
  preserves m -> (forall a, preserves (k a)) -> preserves (bind m k).
Proof.
  intros Hm Hk w. unfold bind. specialize (Hm w).
  destruct (m w) as [[a|e] w1]; simpl in *; [| exact Hm].
  apply (same_store_trans _ _ _ Hm), Hk.
Qed.

Lemma preserves_try_except {A : Type} (m : Py A) (handler : PyExc -> option (Py A)) :
  preserves m ->
  (forall e h, handler e = Some h -> preserves h) ->
  preserves (try_except m handler).
Proof.
  intros Hm Hh w. unfold try_except. specialize (Hm w).
  destruct (m w) as [[a|e] w1]; simpl in *; [exact Hm |].
  destruct (handler e) as [h|] eqn:E; [| exact Hm].
  apply (same_store_trans _ _ _ Hm), (Hh e h E).
Qed.

Lemma preserves_wrapping {A : Type} (m : Py A) : preserves m -> preserves (wrapping m).
Proof.
  intros Hm. apply preserves_try_except; [exact Hm |].
  intros e h H. inversion H. apply preserves_raise.
Qed.

Lemma preserves_sdk (c : SdkCall) : preserves (sdk c).
Proof. intros w. unfold sdk. destruct (fault w c); split; reflexivity. Qed.

Lemma preserves_read {A : Type} (f : World -> Result A) :
  preserves (fun w => (f w, w)).
Proof. intros w. apply same_store_refl. Qed.

Lemma preserves_objects_filter (bucket prefix : string) :
  preserves (objects_filter bucket prefix).
Proof.
  apply preserves_bind; [apply preserves_sdk |].
  intros _. apply (preserves_read (fun w => Ok (matching (objects w) bucket prefix))).
Qed.

Lemma preserves_object_get (o : ObjectSummary) : preserves (object_get o).
Proof.
  apply preserves_bind; [apply preserves_sdk |].
  intros _ w. destruct (objects w !! (bucket_name o, key o)); apply same_store_refl.
Qed.

Lemma preserves_object_load (bucket k : string) : preserves (object_load bucket k).
Proof.
  apply preserves_bind; [apply preserves_sdk |].
  intros _ w. destruct (objects w !! (bucket, k)); apply same_store_refl.
Qed.

Lemma preserves_resource (self : SimpleStorageService) : preserves (resource self).
Proof.
  unfold resource. destruct (s3_resource self); [apply preserves_ret | apply preserves_raise].
Qed.

Lemma preserves_get_bucket (self : SimpleStorageService) (bucket : string) :
  preserves (get_bucket self bucket).
Proof.
  apply preserves_wrapping, preserves_bind; [apply preserves_resource |].
  intros _. apply preserves_bind; [apply preserves_sdk |].
  intros _. apply preserves_ret.
Qed.

Lemma preserves_read_object (v : PyVal) (decode make_readable : bool) :
  preserves (read_object v decode make_readable).
Proof.
  apply preserves_wrapping, preserves_bind.
  - destruct v; simpl; try apply preserves_raise. apply preserves_object_get.
  - intros body. apply preserves_bind.
    + destruct decode; [| apply preserves_ret].
      apply preserves_bind; [| intros s; apply preserves_ret].
      unfold bytes_decode. destruct (utf8_valid body);
        [apply preserves_ret | apply preserves_raise].
    + intros c. destruct make_readable; [| apply preserves_ret].
      destruct c; simpl; try apply preserves_ret; apply preserves_raise.
Qed.

Lemma preserves_get_file_object (self : SimpleStorageService) (filename bucket : string) :
  preserves (get_file_object self filename bucket).
Proof.
  apply preserves_wrapping, preserves_bind; [apply preserves_get_bucket |].
  intros b. apply preserves_bind; [apply preserves_objects_filter |].
  intros l. destruct (Nat.eqb (List.length l) 1); [| apply preserves_ret].
  destruct (l !! 0%nat); [apply preserves_ret | apply preserves_raise].
Qed.

Lemma preserves_get_df_from_object `{P : Platform} (v : PyVal) :
  preserves (get_df_from_object v).
Proof.
  apply preserves_wrapping, preserves_bind; [apply preserves_read_object |].
  intros c. apply preserves_bind; [| intros df; apply preserves_ret].
  unfold pandas_read_csv. destruct c; try apply preserves_raise.
  destruct (pd_read_csv s "na"); [apply preserves_ret | apply preserves_raise].
Qed.

Lemma preserves_s3_key_path_available (self : SimpleStorageService) (bucket k : string) :
  preserves (s3_key_path_available self bucket k).
Proof.
  apply preserves_try_except.
  - apply preserves_bind; [apply preserves_get_bucket |].
    intros b. apply preserves_bind; [apply preserves_objects_filter |].
    intros l. apply preserves_ret.
  - intros e h H. inversion H. apply preserves_raise.
Qed.

Lemma preserves_read_csv `{P : Platform} (self : SimpleStorageService)
    (filename bucket : string) :
  preserves (read_csv self filename bucket).
Proof.
  apply preserves_wrapping, preserves_bind; [apply preserves_get_file_object |].
  intros v. apply preserves_bind; [apply preserves_get_df_from_object |].
  intros df. apply preserves_ret.
Qed.

(** X2.  The listing and reading operations write nothing: whether
    they return or raise, and whatever the SDK does, the objects of
    the backend and the local files are afterwards what they were
    before.  ([load_model] is not among them: unpickling is outside
    the world.) *)
Theorem readers_preserve_store `{P : Platform} (self : SimpleStorageService) (w : World) :
  (forall b, same_store w (snd (get_bucket self b w))) /\
  (forall b k, same_store w (snd (s3_key_path_available self b k w))) /\
  (forall v d r, same_store w (snd (read_object v d r w))) /\
  (forall f b, same_store w (snd (get_file_object self f b w))) /\
  (forall v, same_store w (snd (get_df_from_object v w))) /\
  (forall f b, same_store w (snd (read_csv self f b w))).
Proof.
  repeat match goal with |- _ /\ _ => split end; intros.
  - apply preserves_get_bucket.
  - apply preserves_s3_key_path_available.
  - apply preserves_read_object.
  - apply preserves_get_file_object.
  - apply preserves_get_df_from_object.
  - apply preserves_read_csv.
Qed.

(** X3.  [create_folder] touches the marker key only: whatever the
    probe and the write do, and whether the call returns or raises,
    the local files are unchanged, and the backend is either
    unchanged or has gained the zero-byte object at
    [folder_name + "/"]; every other key keeps what it had. *)
Theorem create_folder_frame
    (self : SimpleStorageService) (folder bucket : string) (w : World) :
  files (snd (create_folder self folder bucket w)) = files w /\
  (objects (snd (create_folder self folder bucket w)) = objects w \/
   objects (snd (create_folder self folder bucket w))
     = <[(bucket, folder ++ "/") := ""]> (objects w)) /\
  (forall b k, (b, k) <> (bucket, folder ++ "/") ->
     objects (snd (create_folder self folder bucket w)) !! (b, k) = objects w !! (b, k)).
Proof.
  assert (H : files (snd (create_folder self folder bucket w)) = files w /\
              (objects (snd (create_folder self folder bucket w)) = objects w \/
               objects (snd (create_folder self folder bucket w))
                 = <[(bucket, folder ++ "/") := ""]> (objects w))).
  { unfold create_folder. py_run.
    destruct (s3_resource self); simpl; [| auto].
    destruct (fault w (ObjectLoad bucket (folder ++ "/"))) as [e|]; simpl.
    - destruct e; simpl; auto.
      destruct (String.eqb code "404"); simpl; [| auto].
      destruct (fault w (PutObject bucket (folder ++ "/"))); simpl; auto.
    - destruct (objects w !! (bucket, folder ++ "/")); simpl; [auto |].
      destruct (fault w (PutObject bucket (folder ++ "/"))); simpl; auto. }
  destruct H as [Hf Ho]. split; [exact Hf |]. split; [exact Ho |].
  intros b k Hne. destruct Ho as [-> | ->]; [reflexivity |].
  apply lookup_insert_ne. congruence.
Qed.

Lemma create_folder_frame_witness :
  objects (snd (create_folder service "f" "b" bucket_b)) !! ("b", "data.csv")
    = objects bucket_b !! ("b", "data.csv").
Proof.
  apply (proj2 (proj2 (create_folder_frame service "f" "b" bucket_b))).
  discriminate.
Defined.

(** X4.  [upload_file] loses nothing: whatever the SDK and the
    operating system do, the local files are afterwards unchanged, or
    the call has returned with [remove=True] having removed exactly
    the source file after its content was stored under the key.  The
    backend is unchanged or holds that content under the key. *)
Theorem upload_file_frame
    (self : SimpleStorageService) (from_filename to_filename bucket : string)
    (remove : bool) (w : World) :
  (files (snd (upload_file self from_filename to_filename bucket remove w)) = files w \/
   (remove = true /\
    fst (upload_file self from_filename to_filename bucket remove w) = Ok tt /\
    files (snd (upload_file self from_filename to_filename bucket remove w))
      = delete from_filename (files w) /\
    exists body,
      files w !! from_filename = Some body /\
      objects (snd (upload_file self from_filename to_filename bucket remove w))
        !! (bucket, to_filename) = Some body)) /\
  (objects (snd (upload_file self from_filename to_filename bucket remove w)) = objects w \/
   exists body,
     files w !! from_filename = Some body /\
     objects (snd (upload_file self from_filename to_filename bucket remove w))
       = <[(bucket, to_filename) := body]> (objects w)).
Proof.
  unfold upload_file. py_run.
  destruct (s3_resource self); simpl; [| auto].
  destruct (fault w (ClientUploadFile from_filename bucket to_filename)); simpl; [auto |].
  destruct (files w !! from_filename) as [body|] eqn:Hfile; simpl; [| auto].
  destruct remove; simpl; [| split; eauto].
  destruct (fault w (OsRemove from_filename)); simpl; [split; eauto |].
  rewrite Hfile. simpl. split; [right | eauto].
  repeat split; try reflexivity.
  exists body. split; [reflexivity | apply lookup_insert_eq].
Qed.

(** X5.  The removal of the local file is not guarded apart: when
    the upload goes through and [os.remove] fails, [upload_file]
    raises the wrapped failure although the object is stored, and the
    local file is still there. *)
Theorem upload_file_remove_fails
    (self : SimpleStorageService) (from_filename to_filename bucket body : string)
    (e : PyExc) (w : World) :
  s3_resource self = Some ServiceResource ->
  files w !! from_filename = Some body ->
  fault w (ClientUploadFile from_filename bucket to_filename) = None ->
  fault w (OsRemove from_filename) = Some e ->
  exists w',
    upload_file self from_filename to_filename bucket true w
      = (Raise (MyException (Cause e)), w') /\
    objects w' !! (bucket, to_filename) = Some body /\
    files w' = files w.
Proof.
  intros Hres Hfile Hup Hrm. eexists. split.
  - unfold upload_file. py_run. rewrite Hres. simpl.
    rewrite Hup. simpl. rewrite Hfile. simpl. rewrite Hrm. reflexivity.
  - simpl. split; [apply lookup_insert_eq | reflexivity].
Qed.

Lemma upload_file_remove_fails_witness :
  exists w',
    upload_file service "local.csv" "k" "b" true (with_fault remove_refused bucket_b)
      = (Raise (MyException (Cause (FileNotFoundError "local.csv"))), w') /\
    objects w' !! ("b", "k") = Some "zz" /\
    files w' = files (with_fault remove_refused bucket_b).
Proof.
  apply (upload_file_remove_fails service "local.csv" "k" "b" "zz"
           (FileNotFoundError "local.csv") (with_fault remove_refused bucket_b));
    reflexivity.
Defined.

(** X6.  [upload_df_as_csv] writes the table to the local file
    before it uploads: when the upload is refused, the call raises
    the failure wrapped twice (by [upload_file] and by itself),
    nothing reaches the backend, and the CSV file stays on disk. *)
Theorem upload_df_as_csv_upload_fails `{P : Platform}
    (self : SimpleStorageService) (T : DataFrame)
    (local_filename k bucket : string) (e : PyExc) (w : World) :
  s3_resource self = Some ServiceResource ->
  fault w (ToCsv local_filename) = None ->
  fault w (ClientUploadFile local_filename bucket k) = Some e ->
  exists w',
    upload_df_as_csv self T local_filename k bucket w
      = (Raise (MyException (Cause (MyException (Cause e)))), w') /\
    objects w' = objects w /\
    files w' = <[local_filename := to_csv T]> (files w).
Proof.
  intros Hres Hcsv Hup. eexists. split.
  - unfold upload_df_as_csv, to_csv_file, upload_file. py_run.
    rewrite Hcsv. simpl. rewrite Hres. simpl. rewrite Hup. reflexivity.
  - split; reflexivity.
Qed.

Lemma upload_df_as_csv_upload_fails_witness :
  exists w',
    @upload_df_as_csv text_cells service small_table "t.csv" "k" "b"
      (with_fault upload_refused bucket_b)
      = (Raise (MyException (Cause (MyException (Cause (ClientError "AccessDenied"))))), w') /\
    objects w' = objects (with_fault upload_refused bucket_b) /\
    files w' = <[ "t.csv" := table_to_csv small_table]>
                 (files (with_fault upload_refused bucket_b)).
Proof.
  apply (@upload_df_as_csv_upload_fails text_cells service small_table "t.csv" "k" "b"
           (ClientError "AccessDenied") (with_fault upload_refused bucket_b));
    reflexivity.
Defined.

(** *** What read_object returns *)

Lemma object_get_ok (o : ObjectSummary) (w : World) (body : string) :
  fault w (ObjectGet (bucket_name o) (key o)) = None ->
  objects w !! (bucket_name o, key o) = Some body ->
  object_get o w = (Ok body, log_call (ObjectGet (bucket_name o) (key o)) w).
Proof.
  intros Hf Hb. unfold object_get. py_run. rewrite Hf. simpl. rewrite Hb. reflexivity.
Qed.

(** X7.  [read_object] hands over the stored content and nothing
    else: the bytes themselves with [decode=False]; with
    [decode=True] the same text, bare or in a buffer, when the bytes
    are well-formed UTF-8, and the wrapped [UnicodeDecodeError] when
    they are not. *)
Theorem read_object_content (o : ObjectSummary) (w : World) (body : string) :
  fault w (ObjectGet (bucket_name o) (key o)) = None ->
  objects w !! (bucket_name o, key o) = Some body ->
  fst (read_object (VObject o) false false w) = Ok (VBytes body) /\
  (utf8_valid body = true ->
   fst (read_object (VObject o) true false w) = Ok (VStr body) /\
   fst (read_object (VObject o) true true w) = Ok (VStringIO body)) /\
  (utf8_valid body = false ->
   forall make_readable,
     fst (read_object (VObject o) true make_readable w)
       = Raise (MyException (Cause UnicodeDecodeError))).
Proof.
  intros Hf Hb.
  pose proof (object_get_ok o w body Hf Hb) as Hget.
  unfold read_object, wrapping, try_except. simpl.
  split; [| split].
  - unfold bind at 1. rewrite Hget. reflexivity.
  - intros Hv. split.
    + unfold bind at 1. rewrite Hget. py_run. rewrite Hv. reflexivity.
    + unfold bind at 1. rewrite Hget. py_run. rewrite Hv. reflexivity.
  - intros Hv r. unfold bind at 1. rewrite Hget. py_run. rewrite Hv. reflexivity.
Qed.

Lemma read_object_content_witness :
  fst (read_object (VObject (mkObject "b" "data.csv.bak")) true true bucket_b)
    = Ok (VStringIO "x") /\
  fst (read_object (VObject (mkObject "r" "blob")) false false bucket_raw)
    = Ok (VBytes (String (ascii_of_nat 255) EmptyString)) /\
  fst (read_object (VObject (mkObject "r" "blob")) true false bucket_raw)
    = Raise (MyException (Cause UnicodeDecodeError)).
Proof.
  pose proof (read_object_content (mkObject "b" "data.csv.bak") bucket_b "x"
                eq_refl eq_refl) as (_ & Htext & _).
  pose proof (read_object_content (mkObject "r" "blob") bucket_raw
                (String (ascii_of_nat 255) EmptyString) eq_refl eq_refl)
    as (Hraw & _ & Hbad).
  split; [apply Htext; reflexivity |].
  split; [exact Hraw | apply Hbad; reflexivity].
Defined.

(** X8.  Any argument that has no [get] and is not a string, such as
    the list [get_file_object] returns when the key is missing or
    ambiguous, is refused with the second argument error, before any
    call: the world is the one given. *)
Theorem read_object_other_argument_error
    (v : PyVal) (decode make_readable : bool) (w : World) :
  hasattr_get v = false ->
  isinstance_str v = false ->
  read_object v decode make_readable w
    = (Raise (MyException (Cause (MyException
         (Msg "Invalid argument type for read_object")))), w).
Proof.
  intros Hget Hstr. unfold read_object, wrapping, try_except, bind.
  rewrite Hget, Hstr. reflexivity.
Qed.

Lemma read_object_other_argument_error_witness :
  read_object (VList []) true true bucket_b
    = (Raise (MyException (Cause (MyException
         (Msg "Invalid argument type for read_object")))), bucket_b).
Proof.
  apply (read_object_other_argument_error (VList []) true true bucket_b); reflexivity.
Defined.

(** *** Resolving a key *)

Lemma get_file_object_single
    (self : SimpleStorageService) (filename bucket : string) (w : World) (o : ObjectSummary) :
  s3_resource self = Some ServiceResource ->
  fault w (ResourceBucket bucket) = None ->
  fault w (ObjectsFilter bucket filename) = None ->
  matching (objects w) bucket filename = [o] ->
  get_file_object self filename bucket w
    = (Ok (VObject o),
       log_call (ObjectsFilter bucket filename) (log_call (ResourceBucket bucket) w)).
Proof.
  intros Hres Hb Hl Hm.
  pose proof (listing_ok self bucket filename w Hres Hb Hl) as Hlist.
  unfold get_file_object. apply wrapping_ok.
  unfold bind in Hlist |- *.
  destruct (get_bucket self bucket w) as [[b0|e0] w0]; [| discriminate Hlist].
  rewrite Hlist, Hm. reflexivity.
Qed.

Lemma get_file_object_list
    (self : SimpleStorageService) (filename bucket : string) (w : World) :
  s3_resource self = Some ServiceResource ->
  fault w (ResourceBucket bucket) = None ->
  fault w (ObjectsFilter bucket filename) = None ->
  List.length (matching (objects w) bucket filename) <> 1 ->
  get_file_object self filename bucket w
    = (Ok (VList (matching (objects w) bucket filename)),
       log_call (ObjectsFilter bucket filename) (log_call (ResourceBucket bucket) w)).
Proof.
  intros Hres Hb Hl Hm.
  pose proof (listing_ok self bucket filename w Hres Hb Hl) as Hlist.
  unfold get_file_object. apply wrapping_ok.
  unfold bind in Hlist |- *.
  destruct (get_bucket self bucket w) as [[b0|e0] w0]; [| discriminate Hlist].
  rewrite Hlist.
  destruct (matching (objects w) bucket filename) as [|o [|o2 l]];
    [reflexivity | exfalso; apply Hm; reflexivity | reflexivity].
Qed.

(** X9.  [load_model] reads the one object whose key starts with the
    key it built, be it a longer key, and returns what [pickle.loads]
    makes of its bytes; when [pickle.loads] fails the failure is raised
    wrapped. *)
Theorem load_model_single `{P : Platform}
    (self : SimpleStorageService) (model_name bucket : string)
    (model_dir : option string) (w : World) (o : ObjectSummary) (body : string) :
  s3_resource self = Some ServiceResource ->
  fault w (ResourceBucket bucket) = None ->
  fault w (ObjectsFilter bucket (model_file model_name model_dir)) = None ->
  fault w (ObjectGet (bucket_name o) (key o)) = None ->
  matching (objects w) bucket (model_file model_name model_dir) = [o] ->
  objects w !! (bucket_name o, key o) = Some body ->
  fst (load_model self model_name bucket model_dir w)
    = match pickle_loads body with
      | Some m => Ok m
      | None => Raise (MyException (Cause UnpicklingError))
      end.
Proof.
  intros Hres Hb Hl Hg Hm Hbody.
  pose proof (get_file_object_single self _ bucket w o Hres Hb Hl Hm) as Hobj.
  unfold load_model, wrapping, try_except.
  unfold bind at 1. rewrite Hobj.
  unfold read_object, wrapping, try_except. simpl.
  unfold bind at 1. unfold bind at 1. unfold bind at 1.
  rewrite (object_get_ok o _ body) by (simpl; assumption).
  py_run. destruct (pickle_loads body); reflexivity.
Qed.

Lemma load_model_single_witness :
  fst (@load_model text_cells service "m" "b" (Some "models") bucket_b) = Ok "MODEL".
Proof.
  apply (@load_model_single text_cells service "m" "b" (Some "models") bucket_b
           (mkObject "b" "models/m.pkl") "MODEL"); reflexivity.
Defined.

(** X10.  When the key [load_model] built matches no object, or more
    than one, the model is not fetched: the list goes to
    [read_object], and the caller gets its argument error wrapped
    three times, not a not-found error. *)
Theorem load_model_not_single `{P : Platform}
    (self : SimpleStorageService) (model_name bucket : string)
    (model_dir : option string) (w : World) :
  s3_resource self = Some ServiceResource ->
  fault w (ResourceBucket bucket) = None ->
  fault w (ObjectsFilter bucket (model_file model_name model_dir)) = None ->
  List.length (matching (objects w) bucket (model_file model_name model_dir)) <> 1 ->
  load_model self model_name bucket model_dir w
    = (Raise (MyException (Cause (MyException (Cause (MyException
         (Msg "Invalid argument type for read_object")))))),
       log_call (ObjectsFilter bucket (model_file model_name model_dir))
         (log_call (ResourceBucket bucket) w)).
Proof.
  intros Hres Hb Hl Hm.
  pose proof (get_file_object_list self _ bucket w Hres Hb Hl Hm) as Hobj.
  unfold load_model, wrapping, try_except.
  unfold bind at 1. rewrite Hobj. reflexivity.
Qed.

Lemma load_model_not_single_witness :
  @load_model text_cells service "absent.pkl" "b" None bucket_b
    = (Raise (MyException (Cause (MyException (Cause (MyException
         (Msg "Invalid argument type for read_object")))))),
       log_call (ObjectsFilter "b" "absent.pkl") (log_call (ResourceBucket "b") bucket_b)).
Proof.
  apply (@load_model_not_single text_cells service "absent.pkl" "b" None bucket_b);
    try reflexivity.
  assert (E : matching (objects bucket_b) "b" (model_file "absent.pkl" None) = [])
    by (vm_compute; reflexivity).
  rewrite E. discriminate.
Defined.

(** X11.  [read_csv] assumes one match: when no object, or more than
    one, has a key that starts with [filename], nothing is fetched or
    parsed and the caller gets the argument error of [read_object]
    under four wrappings. *)
Theorem read_csv_not_single `{P : Platform}
    (self : SimpleStorageService) (filename bucket : string) (w : World) :
  s3_resource self = Some ServiceResource ->
  fault w (ResourceBucket bucket) = None ->
  fault w (ObjectsFilter bucket filename) = None ->
  List.length (matching (objects w) bucket filename) <> 1 ->
  read_csv self filename bucket w
    = (Raise (MyException (Cause (MyException (Cause (MyException (Cause (MyException
         (Msg "Invalid argument type for read_object")))))))),
       log_call (ObjectsFilter bucket filename) (log_call (ResourceBucket bucket) w)).
Proof.
  intros Hres Hb Hl Hm.
  pose proof (get_file_object_list self _ bucket w Hres Hb Hl Hm) as Hobj.
  unfold read_csv, wrapping, try_except.
  unfold bind at 1. rewrite Hobj. reflexivity.
Qed.

Lemma read_csv_not_single_witness :
  @read_csv text_cells service "data.csv" "b" bucket_b
    = (Raise (MyException (Cause (MyException (Cause (MyException (Cause (MyException
         (Msg "Invalid argument type for read_object")))))))),
       log_call (ObjectsFilter "b" "data.csv") (log_call (ResourceBucket "b") bucket_b)).
Proof.
  apply (@read_csv_not_single text_cells service "data.csv" "b" bucket_b);
    try reflexivity.
  assert (E : matching (objects bucket_b) "b" "data.csv"
              = [mkObject "b" "data.csv.bak"; mkObject "b" "data.csv"])
    by (vm_compute; reflexivity).
  rewrite E. discriminate.
Defined.

(** X12.  With one match, [read_csv] fails on the content in two
    ways: bytes that are not UTF-8 raise [UnicodeDecodeError] under
    three wrappings ([read_object], [get_df_from_object], [read_csv]),
    text that pandas cannot parse raises its error under two. *)
Theorem read_csv_bad_content `{P : Platform}
    (self : SimpleStorageService) (filename bucket : string) (w : World)
    (o : ObjectSummary) (body : string) :
  s3_resource self = Some ServiceResource ->
  fault w (ResourceBucket bucket) = None ->
  fault w (ObjectsFilter bucket filename) = None ->
  fault w (ObjectGet (bucket_name o) (key o)) = None ->
  matching (objects w) bucket filename = [o] ->
  objects w !! (bucket_name o, key o) = Some body ->
  (utf8_valid body = false ->
   fst (read_csv self filename bucket w)
     = Raise (MyException (Cause (MyException (Cause (MyException
         (Cause UnicodeDecodeError))))))) /\
  (utf8_valid body = true -> pd_read_csv body "na" = None ->
   fst (read_csv self filename bucket w)
     = Raise (MyException (Cause (MyException (Cause ParserError))))).
Proof.
  intros Hres Hb Hl Hg Hm Hbody.
  pose proof (get_file_object_single self _ bucket w o Hres Hb Hl Hm) as Hobj.
  assert (Hget : object_get o
            (log_call (ObjectsFilter bucket filename) (log_call (ResourceBucket bucket) w))
          = (Ok body, log_call (ObjectGet (bucket_name o) (key o))
               (log_call (ObjectsFilter bucket filename)
                  (log_call (ResourceBucket bucket) w))))
    by (apply object_get_ok; simpl; assumption).
  split.
  - intros Hv. unfold read_csv, wrapping, try_except.
    unfold bind at 1. rewrite Hobj.
    unfold get_df_from_object, read_object, wrapping, try_except. simpl.
    unfold bind at 1. unfold bind at 1. unfold bind at 1. unfold bind at 1.
    rewrite Hget. py_run. rewrite Hv. reflexivity.
  - intros Hv Hp. unfold read_csv, wrapping, try_except.
    unfold bind at 1. rewrite Hobj.
    unfold get_df_from_object, read_object, wrapping, try_except. simpl.
    unfold bind at 1. unfold bind at 1. unfold bind at 1. unfold bind at 1.
    rewrite Hget. py_run. rewrite Hv. simpl. rewrite Hp. reflexivity.
Qed.

Lemma read_csv_bad_content_witness :
  fst (@read_csv text_cells service "blob" "r" bucket_raw)
    = Raise (MyException (Cause (MyException (Cause (MyException
        (Cause UnicodeDecodeError)))))) /\
  fst (@read_csv text_cells service "empty" "r" bucket_raw)
    = Raise (MyException (Cause (MyException (Cause ParserError)))).
Proof.
  split.
  - apply (proj1 (@read_csv_bad_content text_cells service "blob" "r" bucket_raw
                    (mkObject "r" "blob") (String (ascii_of_nat 255) EmptyString)
                    eq_refl eq_refl eq_refl eq_refl eq_refl eq_refl)).
    reflexivity.
  - apply (proj2 (@read_csv_bad_content text_cells service "empty" "r" bucket_raw
                    (mkObject "r" "empty.csv") ""
                    eq_refl eq_refl eq_refl eq_refl eq_refl eq_refl));
      reflexivity.
Defined.

(** X13.  In the listing operations a failure is wrapped once per
    handler it crosses: a failure to build the bucket handle reaches
    the caller under two wrappings (of [get_bucket] and of the
    operation) and the listing is not attempted; a failure of the
    listing itself under one. *)
Theorem listing_failures_wrapped
    (self : SimpleStorageService) (bucket k : string) (e : PyExc) (w : World) :
  s3_resource self = Some ServiceResource ->
  (fault w (ResourceBucket bucket) = Some e ->
   s3_key_path_available self bucket k w
     = (Raise (MyException (Cause (MyException (Cause e)))),
        log_call (ResourceBucket bucket) w) /\
   get_file_object self k bucket w
     = (Raise (MyException (Cause (MyException (Cause e)))),
        log_call (ResourceBucket bucket) w)) /\
  (fault w (ResourceBucket bucket) = None ->
   fault w (ObjectsFilter bucket k) = Some e ->
   s3_key_path_available self bucket k w
     = (Raise (MyException (Cause e)),
        log_call (ObjectsFilter bucket k) (log_call (ResourceBucket bucket) w)) /\
   get_file_object self k bucket w
     = (Raise (MyException (Cause e)),
        log_call (ObjectsFilter bucket k) (log_call (ResourceBucket bucket) w))).
Proof.
  intros Hres. split.
  - intros Hb. split.
    + unfold s3_key_path_available, get_bucket. py_run.
      rewrite Hres. simpl. rewrite Hb. reflexivity.
    + unfold get_file_object, get_bucket. py_run.
      rewrite Hres. simpl. rewrite Hb. reflexivity.
  - intros Hb Hl. split.
    + unfold s3_key_path_available, get_bucket. py_run.
      rewrite Hres. simpl. rewrite Hb. simpl. rewrite Hl. reflexivity.
    + unfold get_file_object, get_bucket. py_run.
      rewrite Hres. simpl. rewrite Hb. simpl. rewrite Hl. reflexivity.
Qed.

Lemma listing_failures_wrapped_witness :
  s3_key_path_available service "b" "data" (with_fault bucket_refused bucket_b)
    = (Raise (MyException (Cause (MyException (Cause
         (BotoCoreError "ParamValidationError"))))),
       log_call (ResourceBucket "b") (with_fault bucket_refused bucket_b)) /\
  get_file_object service "data" "b" (with_fault listing_refused bucket_b)
    = (Raise (MyException (Cause (ClientError "AccessDenied"))),
       log_call (ObjectsFilter "b" "data")
         (log_call (ResourceBucket "b") (with_fault listing_refused bucket_b))).
Proof.
  split.
  - apply (proj1 (listing_failures_wrapped service "b" "data"
                    (BotoCoreError "ParamValidationError")
                    (with_fault bucket_refused bucket_b) eq_refl)).
    reflexivity.
  - apply (proj2 (listing_failures_wrapped service "b" "data"
                    (ClientError "AccessDenied")
                    (with_fault listing_refused bucket_b) eq_refl));
      reflexivity.
Defined.

(** *** How the operations compose *)

Lemma s3_key_path_available_run
    (self : SimpleStorageService) (bucket k : string) (w : World) :
  s3_resource self = Some ServiceResource ->
  fault w (ResourceBucket bucket) = None ->
  fault w (ObjectsFilter bucket k) = None ->
  s3_key_path_available self bucket k w
    = (Ok (Nat.ltb 0 (List.length (matching (objects w) bucket k))),
       log_call (ObjectsFilter bucket k) (log_call (ResourceBucket bucket) w)).
Proof.
  intros Hres Hb Hl.
  pose proof (listing_ok self bucket k w Hres Hb Hl) as Hlist.
  unfold s3_key_path_available, try_except.
  unfold bind in Hlist |- *.
  destruct (get_bucket self bucket w) as [[b0|e0] w0]; [| discriminate Hlist].
  rewrite Hlist. reflexivity.
Qed.

Lemma matching_nonempty (m : gmap (string * string) string) (bucket prefix k : string) :
  is_Some (m !! (bucket, k)) ->
  String.prefix prefix k = true ->
  Nat.ltb 0 (List.length (matching m bucket prefix)) = true.
Proof.
  intros Hs Hp.
  assert (Hin : In (mkObject bucket k) (matching m bucket prefix))
    by (apply In_matching; simpl; auto).
  destruct (matching m bucket prefix); [destruct Hin | reflexivity].
Qed.

Lemma prefix_app (s t : string) : String.prefix s (s ++ t) = true.
Proof.
  induction s as [|a s IH]; simpl; [destruct t; reflexivity |].
  destruct (ascii_dec a a); [exact IH | contradiction].
Qed.

(** X14.  The two listing operations agree on one state of the
    bucket: [s3_key_path_available] answers [False] exactly when
    [get_file_object] returns the empty list, and [True] whenever
    [get_file_object] returns an object. *)
Theorem available_agrees_with_get_file_object
    (self : SimpleStorageService) (bucket k : string) (w : World) :
  s3_resource self = Some ServiceResource ->
  fault w (ResourceBucket bucket) = None ->
  fault w (ObjectsFilter bucket k) = None ->
  (fst (s3_key_path_available self bucket k w) = Ok false <->
   fst (get_file_object self k bucket w) = Ok (VList [])) /\
  (forall o, fst (get_file_object self k bucket w) = Ok (VObject o) ->
             fst (s3_key_path_available self bucket k w) = Ok true).
Proof.
  intros Hres Hb Hl.
  rewrite (s3_key_path_available_run self bucket k w Hres Hb Hl). simpl.
  destruct (matching (objects w) bucket k) as [|o [|o2 l]] eqn:E.
  - rewrite (get_file_object_list self k bucket w Hres Hb Hl) by (rewrite E; discriminate).
    rewrite E. simpl. split; [tauto | discriminate].
  - rewrite (get_file_object_single self k bucket w o Hres Hb Hl E). simpl.
    split; [split; discriminate | reflexivity].
  - rewrite (get_file_object_list self k bucket w Hres Hb Hl) by (rewrite E; discriminate).
    rewrite E. simpl. split; [split; discriminate | discriminate].
Qed.

Lemma available_agrees_with_get_file_object_witness :
  (fst (s3_key_path_available service "b" "absent" bucket_b) = Ok false <->
   fst (get_file_object service "absent" "b" bucket_b) = Ok (VList [])) /\
  (forall o, fst (get_file_object service "absent" "b" bucket_b) = Ok (VObject o) ->
             fst (s3_key_path_available service "b" "absent" bucket_b) = Ok true).
Proof.
  apply (available_agrees_with_get_file_object service "b" "absent" bucket_b);
    reflexivity.
Defined.

(** X15.  The empty key is a prefix of every key: with it
    [s3_key_path_available] tells whether the bucket holds any object
    at all. *)
Theorem s3_key_path_available_empty_key
    (self : SimpleStorageService) (bucket : string) (w : World) :
  s3_resource self = Some ServiceResource ->
  fault w (ResourceBucket bucket) = None ->
  fault w (ObjectsFilter bucket "") = None ->
  (fst (s3_key_path_available self bucket "" w) = Ok true <->
   exists k, is_Some (objects w !! (bucket, k))).
Proof.
  intros Hres Hb Hl.
  rewrite (s3_key_path_available_run self bucket "" w Hres Hb Hl). simpl.
  split.
  - intros H.
    destruct (matching (objects w) bucket "") as [|o l] eqn:E; [discriminate H |].
    assert (Hin : In o (matching (objects w) bucket "")) by (rewrite E; left; reflexivity).
    apply In_matching in Hin as (Hs & Hbk & _).
    exists (key o). rewrite <- Hbk. exact Hs.
  - intros [k Hs]. f_equal. apply (matching_nonempty _ _ _ k Hs).
    destruct k; reflexivity.
Qed.

Lemma s3_key_path_available_empty_key_witness :
  fst (s3_key_path_available service "b" "" bucket_b) = Ok true <->
  exists k, is_Some (objects bucket_b !! ("b", k)).
Proof.
  apply (s3_key_path_available_empty_key service "b" bucket_b); reflexivity.
Defined.

(** X16.  After [create_folder] has returned on a backend without
    failures, the folder is there for [s3_key_path_available], asked
    with the marker key or with the bare folder name. *)
Theorem create_folder_then_available
    (self : SimpleStorageService) (folder bucket : string) (w : World) :
  s3_resource self = Some ServiceResource ->
  (forall c, fault w c = None) ->
  exists w1,
    create_folder self folder bucket w = (Ok tt, w1) /\
    fst (s3_key_path_available self bucket (folder ++ "/") w1) = Ok true /\
    fst (s3_key_path_available self bucket folder w1) = Ok true.
Proof.
  intros Hres Hf.
  assert (Hrun : exists w1,
             create_folder self folder bucket w = (Ok tt, w1) /\
             fault w1 = fault w /\
             is_Some (objects w1 !! (bucket, folder ++ "/"))).
  { unfold create_folder. py_run. rewrite Hres. simpl. rewrite Hf. simpl.
    destruct (objects w !! (bucket, folder ++ "/")) as [body|] eqn:Hm; simpl.
    - eexists. split; [reflexivity |]. simpl. rewrite Hm. eauto.
    - rewrite Hf. simpl. eexists. split; [reflexivity |]. simpl.
      rewrite lookup_insert_eq. eauto. }
  destruct Hrun as (w1 & Hcreate & Hfault & Hs).
  exists w1. split; [exact Hcreate |].
  assert (Hf1 : forall c, fault w1 c = None) by (intros c; rewrite Hfault; apply Hf).
  rewrite !s3_key_path_available_run by auto. simpl.
  split; f_equal.
  - apply (matching_nonempty _ _ _ _ Hs), prefix_refl.
  - apply (matching_nonempty _ _ _ _ Hs), prefix_app.
Qed.

Lemma create_folder_then_available_witness :
  exists w1,
    create_folder service "f" "b" bucket_b = (Ok tt, w1) /\
    fst (s3_key_path_available service "b" "f/" w1) = Ok true /\
    fst (s3_key_path_available service "b" "f" w1) = Ok true.
Proof.
  apply (create_folder_then_available service "f" "b" bucket_b).
  - reflexivity.
  - intros c. reflexivity.
Defined.

(** X17.  What [upload_file] stored is what [read_object] reads: on
    a backend without failures, after the upload of a local file the
    object at the key has the bytes of the file, with or without the
    removal of the file, and [s3_key_path_available] finds the key. *)
Theorem upload_file_then_read_object
    (self : SimpleStorageService) (from_filename to_filename bucket body : string)
    (remove : bool) (w : World) :
  s3_resource self = Some ServiceResource ->
  (forall c, fault w c = None) ->
  files w !! from_filename = Some body ->
  exists w1,
    upload_file self from_filename to_filename bucket remove w = (Ok tt, w1) /\
    fst (read_object (VObject (mkObject bucket to_filename)) false false w1)
      = Ok (VBytes body) /\
    fst (s3_key_path_available self bucket to_filename w1) = Ok true.
Proof.
  intros Hres Hf Hfile.
  assert (Hrun : exists w1,
             upload_file self from_filename to_filename bucket remove w = (Ok tt, w1) /\
             fault w1 = fault w /\
             objects w1 !! (bucket, to_filename) = Some body).
  { unfold upload_file. py_run. rewrite Hres. simpl. rewrite Hf. simpl.
    rewrite Hfile. simpl. destruct remove; simpl.
    - rewrite Hf. simpl. rewrite Hfile. simpl.
      eexists. split; [reflexivity |]. simpl. split; [reflexivity | apply lookup_insert_eq].
    - eexists. split; [reflexivity |]. simpl. split; [reflexivity | apply lookup_insert_eq]. }
  destruct Hrun as (w1 & Hup & Hfault & Hobj).
  exists w1. split; [exact Hup |].
  assert (Hf1 : forall c, fault w1 c = None) by (intros c; rewrite Hfault; apply Hf).
  split.
  - unfold read_object, wrapping, try_except. simpl.
    unfold bind at 1. unfold bind at 1.
    rewrite (object_get_ok (mkObject bucket to_filename) w1 body) by (simpl; auto).
    reflexivity.
  - rewrite s3_key_path_available_run by auto. simpl. f_equal.
    apply (matching_nonempty _ _ _ to_filename); [rewrite Hobj; eauto | apply prefix_refl].
Qed.

Lemma upload_file_then_read_object_witness :
  exists w1,
    upload_file service "local.csv" "k" "b" true bucket_b = (Ok tt, w1) /\
    fst (read_object (VObject (mkObject "b" "k")) false false w1) = Ok (VBytes "zz") /\
    fst (s3_key_path_available service "b" "k" w1) = Ok true.
Proof.
  apply (upload_file_then_read_object service "local.csv" "k" "b" "zz" true bucket_b).
  - reflexivity.
  - intros c. reflexivity.
  - reflexivity.
Defined.

(** *** Tables *)

Lemma read_object_text (o : ObjectSummary) (w : World) (body : string) :
  fault w (ObjectGet (bucket_name o) (key o)) = None ->
  objects w !! (bucket_name o, key o) = Some body ->
  utf8_valid body = true ->
  read_object (VObject o) true true w
    = (Ok (VStringIO body), log_call (ObjectGet (bucket_name o) (key o)) w).
Proof.
  intros Hf Hb Hv. unfold read_object, wrapping, try_except. simpl.
  unfold bind at 1. unfold bind at 1.
  rewrite (object_get_ok o w body Hf Hb). py_run. rewrite Hv. reflexivity.
Qed.

(** X18.  [get_df_from_object] parses the decoded text of the object
    with ["na"] as the one added missing-value token, and returns the
    table pandas makes of it; a parse failure is raised wrapped. *)
Theorem get_df_from_object_parses `{P : Platform}
    (o : ObjectSummary) (w : World) (body : string) :
  fault w (ObjectGet (bucket_name o) (key o)) = None ->
  objects w !! (bucket_name o, key o) = Some body ->
  utf8_valid body = true ->
  get_df_from_object (VObject o) w
    = (match pd_read_csv body "na" with
       | Some df => Ok df
       | None => Raise (MyException (Cause ParserError))
       end,
       log_call (ObjectGet (bucket_name o) (key o)) w).
Proof.
  intros Hf Hb Hv. unfold get_df_from_object, wrapping, try_except.
  unfold bind at 1. rewrite (read_object_text o w body Hf Hb Hv).
  py_run. destruct (pd_read_csv body "na"); reflexivity.
Qed.

Lemma get_df_from_object_parses_witness :
  @get_df_from_object text_cells (VObject (mkObject "b" "data.csv")) bucket_b
    = (Ok (mkTable ["a"; "b"] [[Some "1"; None]]),
       log_call (ObjectGet "b" "data.csv") bucket_b).
Proof.
  apply (@get_df_from_object_parses text_cells (mkObject "b" "data.csv") bucket_b
           ("a,b" ++ newline ++ "1,na" ++ newline)); reflexivity.
Defined.

(** X19.  [read_csv] reads the one object whose key starts with
    [filename], also when that key is longer than [filename]: its
    result is the table parsed from that object. *)
Theorem read_csv_single `{P : Platform}
    (self : SimpleStorageService) (filename bucket : string) (w : World)
    (o : ObjectSummary) (body : string) (df : DataFrame) :
  s3_resource self = Some ServiceResource ->
  fault w (ResourceBucket bucket) = None ->
  fault w (ObjectsFilter bucket filename) = None ->
  fault w (ObjectGet (bucket_name o) (key o)) = None ->
  matching (objects w) bucket filename = [o] ->
  objects w !! (bucket_name o, key o) = Some body ->
  utf8_valid body = true ->
  pd_read_csv body "na" = Some df ->
  read_csv self filename bucket w
    = (Ok df,
       log_call (ObjectGet (bucket_name o) (key o))
         (log_call (ObjectsFilter bucket filename) (log_call (ResourceBucket bucket) w))).
Proof.
  intros Hres Hb Hl Hg Hm Hbody Hv Hp.
  pose proof (get_file_object_single self _ bucket w o Hres Hb Hl Hm) as Hobj.
  unfold read_csv. apply wrapping_ok.
  unfold bind at 1. rewrite Hobj.
  unfold bind at 1. unfold get_df_from_object, wrapping, try_except.
  unfold bind at 1. rewrite (read_object_text o _ body) by (simpl; assumption).
  py_run. rewrite Hp. reflexivity.
Qed.

Lemma read_csv_single_witness :
  @read_csv text_cells service "data.csv.b" "b" bucket_b
    = (Ok (mkTable ["x"] []),
       log_call (ObjectGet "b" "data.csv.bak")
         (log_call (ObjectsFilter "b" "data.csv.b") (log_call (ResourceBucket "b") bucket_b))).
Proof.
  apply (@read_csv_single text_cells service "data.csv.b" "b" bucket_b
           (mkObject "b" "data.csv.bak") "x" (mkTable ["x"] [])); reflexivity.
Defined.
